(** * hybrid_lib_go: the Result substrate, Person validation, the greet
      use case and the console adapter

    A shallow embedding of the Go code of the library, layer by layer:

    - [utf8], [unicode], [strings], [fmt]: the few functions of Go's standard
      library the code calls, on Go strings (byte sequences);
    - [domerr]: [domain/error], the error taxonomy and [Result[T]];
    - [valueobject]: [domain/valueobject], [Person] and [CreatePerson];
    - [outbound], [command], [usecase]: the application layer;
    - [adapter]: [infrastructure/adapter], [ConsoleWriter].

    Go code that can panic or touch the outside world runs in the monad
    [Go St], a state monad over the state [St] of the collaborators whose
    outcome is a returned value or a panic in flight.

    The listings of [GreetUseCase.Execute] and [ConsoleWriter.Write], the
    declarations of [Result], [Person], [MaxNameLength] and the two port
    interfaces are those of the design specification and the READMEs.  The
    bodies of the methods of [Result] and of [CreatePerson] are not listed
    there; each definition that stands for one says so. *)

From Stdlib Require Import String Ascii List ZArith Lia Bool.
Import ListNotations.

Local Open Scope string_scope.
Local Open Scope Z_scope.

(** ** Go strings

    A Go string is an immutable sequence of bytes; [string] over 8-bit
    [ascii] is exactly that.  [len] is the number of bytes. *)

Definition byte_val (c : ascii) : Z := Z.of_N (N_of_ascii c).

Definition len (s : string) : Z := Z.of_nat (String.length s).

(** [s[i:]] for [0 <= i <= len s]. *)
Fixpoint slice_from (i : nat) (s : string) : string :=
  match i, s with
  | O, _ => s
  | S k, String _ t => slice_from k t
  | S _, EmptyString => EmptyString
  end.

(** [s[:i]] for [0 <= i <= len s]. *)
Fixpoint slice_to (i : nat) (s : string) : string :=
  match i, s with
  | O, _ => EmptyString
  | S k, String c t => String c (slice_to k t)
  | S _, EmptyString => EmptyString
  end.

(** [s[i]] as a byte value; the callers below index within bounds only. *)
Definition index_val (s : string) (i : nat) : Z :=
  match String.get i s with
  | Some c => byte_val c
  | None => 0
  end.

(** ** unicode/utf8 *)

Module utf8.

Definition RuneError : Z := 0xFFFD.
Definition RuneSelf : Z := 0x80.
Definition UTFMax : Z := 4.

Definition maskx : Z := 0x3F.
Definition mask2 : Z := 0x1F.
Definition mask3 : Z := 0x0F.
Definition mask4 : Z := 0x07.

Definition locb : Z := 0x80.
Definition hicb : Z := 0xBF.

(* The information byte of a first byte: size in the low three bits, index
   into [acceptRanges] in the high four, or one of the two special codes. *)
Definition xx : Z := 0xF1.
Definition as_ : Z := 0xF0.
Definition s1 : Z := 0x02.
Definition s2 : Z := 0x13.
Definition s3 : Z := 0x03.
Definition s4 : Z := 0x23.
Definition s5 : Z := 0x34.
Definition s6 : Z := 0x04.
Definition s7 : Z := 0x44.

(** The table [first[256]], by ranges of the first byte. *)
Definition first (c : Z) : Z :=
  if c <? 0x80 then as_
  else if c <? 0xC2 then xx
  else if c <? 0xE0 then s1
  else if c =? 0xE0 then s2
  else if c <? 0xED then s3
  else if c =? 0xED then s4
  else if c <? 0xF0 then s3
  else if c =? 0xF0 then s5
  else if c <? 0xF4 then s6
  else if c =? 0xF4 then s7
  else xx.

(** [acceptRanges[i]] as the pair [(lo, hi)] for the second byte. *)
Definition acceptRanges (i : Z) : Z * Z :=
  if i =? 1 then (0xA0, hicb)
  else if i =? 2 then (locb, 0x9F)
  else if i =? 3 then (0x90, hicb)
  else if i =? 4 then (locb, 0x8F)
  else (locb, hicb).

Definition continuation (b : Z) : bool := (locb <=? b) && (b <=? hicb).

(** [DecodeRuneInString]: the first rune of [s] and its width in bytes;
    [(RuneError, 0)] on the empty string, [(RuneError, 1)] on an invalid
    encoding. *)
Definition DecodeRuneInString (s : string) : Z * nat :=
  match s with
  | EmptyString => (RuneError, 0%nat)
  | String c0 t0 =>
      let b0 := byte_val c0 in
      let x := first b0 in
      if as_ <=? x then
        (* mask is all ones for xx (odd), zero for as (even) *)
        let mask := if Z.testbit x 0 then -1 else 0 in
        (Z.lor (Z.ldiff b0 mask) (Z.land RuneError mask), 1%nat)
      else
        let sz := Z.land x 7 in
        let '(lo, hi) := acceptRanges (Z.shiftr x 4) in
        if len s <? sz then (RuneError, 1%nat)
        else
          match t0 with
          | EmptyString => (RuneError, 1%nat)
          | String c1 t1 =>
              let b1 := byte_val c1 in
              if (b1 <? lo) || (hi <? b1) then (RuneError, 1%nat)
              else if sz <=? 2 then
                (Z.lor (Z.shiftl (Z.land b0 mask2) 6) (Z.land b1 maskx),
                 2%nat)
              else
                match t1 with
                | EmptyString => (RuneError, 1%nat)
                | String c2 t2 =>
                    let b2 := byte_val c2 in
                    if negb (continuation b2) then (RuneError, 1%nat)
                    else if sz <=? 3 then
                      (Z.lor (Z.lor (Z.shiftl (Z.land b0 mask3) 12)
                                    (Z.shiftl (Z.land b1 maskx) 6))
                             (Z.land b2 maskx),
                       3%nat)
                    else
                      match t2 with
                      | EmptyString => (RuneError, 1%nat)
                      | String c3 _ =>
                          let b3 := byte_val c3 in
                          if negb (continuation b3) then (RuneError, 1%nat)
                          else
                            (Z.lor (Z.lor (Z.lor
                               (Z.shiftl (Z.land b0 mask4) 18)
                               (Z.shiftl (Z.land b1 maskx) 12))
                               (Z.shiftl (Z.land b2 maskx) 6))
                               (Z.land b3 maskx),
                             4%nat)
                      end
                end
          end
  end.

(** [RuneStart(b)]: [b] is not a continuation byte. *)
Definition RuneStart (b : Z) : bool := negb (Z.land b 0xC0 =? 0x80).

(* The backwards scan of [DecodeLastRuneInString]: from [start] down to
   [lim], stop at the first byte that can start a rune. *)
Fixpoint scan_back (fuel : nat) (s : string) (start lim : Z) : Z :=
  match fuel with
  | O => start
  | S f =>
      if start <? lim then start
      else if RuneStart (index_val s (Z.to_nat start)) then start
      else scan_back f s (start - 1) lim
  end.

(** [DecodeLastRuneInString]: the last rune of [s] and its width. *)
Definition DecodeLastRuneInString (s : string) : Z * nat :=
  let end_ := len s in
  if end_ =? 0 then (RuneError, 0%nat)
  else
    let r := index_val s (Z.to_nat (end_ - 1)) in
    if r <? RuneSelf then (r, 1%nat)
    else
      let lim := Z.max 0 (end_ - UTFMax) in
      let start := Z.max 0 (scan_back 4 s (end_ - 2) lim) in
      let '(r', size) := DecodeRuneInString (slice_from (Z.to_nat start) s) in
      if start + Z.of_nat size =? end_ then (r', size) else (RuneError, 1%nat).

(* The loop of [RuneCountInString]: [skip] is the number of bytes of the
   current rune still to step over. *)
Fixpoint count_runes (skip : nat) (s : string) : nat :=
  match s with
  | EmptyString => O
  | String _ t =>
      match skip with
      | S k => count_runes k t
      | O => S (count_runes (snd (DecodeRuneInString s) - 1) t)
      end
  end.

(** [RuneCountInString]: the number of runes of [s]; an invalid byte counts
    as one rune of width one. *)
Definition RuneCountInString (s : string) : Z := Z.of_nat (count_runes 0 s).

End utf8.

(** ** unicode *)

Module unicode.

Definition MaxLatin1 : Z := 0xFF.

(** The ranges of the table [White_Space] above Latin-1. *)
Definition White_Space_excluding_Latin (r : Z) : bool :=
  (r =? 0x1680)
  || ((0x2000 <=? r) && (r <=? 0x200A))
  || ((0x2028 <=? r) && (r <=? 0x2029))
  || (r =? 0x202F)
  || (r =? 0x205F)
  || (r =? 0x3000).

(** [IsSpace]: white space as the Unicode property White Space defines it. *)
Definition IsSpace (r : Z) : bool :=
  if (0 <=? r) && (r <=? MaxLatin1) then
    (r =? 0x09) || (r =? 0x0A) || (r =? 0x0B) || (r =? 0x0C) || (r =? 0x0D)
    || (r =? 0x20) || (r =? 0x85) || (r =? 0xA0)
  else White_Space_excluding_Latin r.

End unicode.

(** ** strings *)

Module strings.

(* [TrimLeftFunc]'s search for the first rune that does not satisfy [f],
   and the slice from there; [skip] as in [utf8.count_runes]. *)
Fixpoint trim_left (f : Z -> bool) (skip : nat) (s : string) : string :=
  match s with
  | EmptyString => EmptyString
  | String _ t =>
      match skip with
      | S k => trim_left f k t
      | O =>
          let '(r, size) := utf8.DecodeRuneInString s in
          if f r then trim_left f (size - 1) t else s
      end
  end.

Definition TrimLeftFunc (s : string) (f : Z -> bool) : string :=
  trim_left f 0 s.

(** [lastIndexFunc(s, f, false)]: the byte index of the last rune that does
    not satisfy [f], or -1. *)
Fixpoint last_index_not (fuel : nat) (f : Z -> bool) (s : string) (i : Z) : Z :=
  match fuel with
  | O => -1
  | S n =>
      if 0 <? i then
        let '(r, size) := utf8.DecodeLastRuneInString (slice_to (Z.to_nat i) s) in
        let i' := i - Z.of_nat size in
        if f r then last_index_not n f s i' else i'
      else -1
  end.

Definition TrimRightFunc (s : string) (f : Z -> bool) : string :=
  let i := last_index_not (S (String.length s)) f s (len s) in
  let i' :=
    if (0 <=? i) && (utf8.RuneSelf <=? index_val s (Z.to_nat i)) then
      i + Z.of_nat (snd (utf8.DecodeRuneInString (slice_from (Z.to_nat i) s)))
    else i + 1 in
  slice_to (Z.to_nat i') s.

Definition TrimFunc (s : string) (f : Z -> bool) : string :=
  TrimRightFunc (TrimLeftFunc s f) f.

(** The six bytes of the table [asciiSpace]: tab, line feed, vertical tab,
    form feed, carriage return, space. *)
Definition asciiSpace (c : ascii) : bool :=
  let b := byte_val c in
  (b =? 0x09) || (b =? 0x0A) || (b =? 0x0B) || (b =? 0x0C) || (b =? 0x0D)
  || (b =? 0x20).

(** Every byte of [s] is ASCII white space. *)
Fixpoint all_asciiSpace (s : string) : bool :=
  match s with
  | EmptyString => true
  | String c t => asciiSpace c && all_asciiSpace t
  end.

(** [Repeat(s, count)]: [count] copies of [s]. *)
Fixpoint Repeat (s : string) (count : nat) : string :=
  match count with
  | O => EmptyString
  | S n => s ++ Repeat s n
  end.

(** [TrimSpace]: [s] without its leading and trailing white space, as
    Unicode defines it.  (Go's implementation has a fast path for ASCII
    that returns the same string.) *)
Definition TrimSpace (s : string) : string := TrimFunc s unicode.IsSpace.

End strings.

(** ** The Go runtime: zero values, panics, state

    A call either returns a value or leaves with a panic in flight; the
    state of the outside world it has reached by then stays as it is. *)

Class Zero (T : Type) := zero : T.

#[global] Instance Zero_string : Zero string := EmptyString.
#[global] Instance Zero_bool : Zero bool := false.
#[global] Instance Zero_Z : Zero Z := 0.

Inductive Outcome (A : Type) : Type :=
| Returned (a : A)
| Panicked (v : string).

Arguments Returned {A} a.
Arguments Panicked {A} v.

Definition Go (St A : Type) : Type := St -> Outcome A * St.

Definition ret {St A} (a : A) : Go St A := fun st => (Returned a, st).

Definition panic {St A} (v : string) : Go St A := fun st => (Panicked v, st).

Definition bind {St A B} (c : Go St A) (k : A -> Go St B) : Go St B :=
  fun st =>
    match c st with
    | (Returned a, st') => k a st'
    | (Panicked v, st') => (Panicked v, st')
    end.

(** A call that touches no state. *)
Definition lift {St A} (o : Outcome A) : Go St A := fun st => (o, st).

Declare Scope go_scope.
Delimit Scope go_scope with go.
Notation "x <- c ;; k" := (bind c (fun x => k))
  (at level 61, c at next level, right associativity) : go_scope.
Notation "' pat <- c ;; k" := (bind c (fun x => match x with pat => k end))
  (at level 61, pat pattern, c at next level, right associativity) : go_scope.
Local Open Scope go_scope.

(** A function with the named result [result] whose first statement is
[[
    defer func() {
        if r := recover(); r != nil { result = handler(r) }
    }()
]]
    [recover] stops a panic in flight and yields its value, which is never
    nil (a [panic(nil)] reaches [recover] as a [*runtime.PanicNilError]); on
    a normal return it yields nil and [result] stays what [body] returned. *)
Definition defer_recover {St R} (handler : string -> R) (body : Go St R)
  : Go St R :=
  fun st =>
    match body st with
    | (Returned r, st') => (Returned r, st')
    | (Panicked v, st') => (Returned (handler v), st')
    end.

(** The Go interface [error], by its method [Error]; [option error] is an
    interface value that may be nil. *)
Record error : Type := errors_New { Error : string }.

(** ** domain/error *)

Module domerr.

(** Modelled from the spec: the constants of [ErrorKind] (only their
    re-export is among the sources); the spec's closed enumeration. *)
Inductive ErrorKind : Type :=
| ValidationError
| InfrastructureError.

(** Modelled from the spec: [ErrorType], the spec's [{kind, message}];
    the sources use its fields [Kind] and [Message]. *)
Record ErrorType : Type := mkErrorType {
  Kind : ErrorKind;
  Message : string
}.

#[global] Instance Zero_ErrorKind : Zero ErrorKind := ValidationError.
#[global] Instance Zero_ErrorType : Zero ErrorType :=
  {| Kind := zero; Message := zero |}.

(** Modelled from the spec: [NewValidationError], the constructor of an
    error of kind [ValidationError] with the given message. *)
Definition NewValidationError (message : string) : ErrorType :=
  {| Kind := ValidationError; Message := message |}.

(** Modelled from the spec: [NewInfrastructureError], the constructor of
    an error of kind [InfrastructureError] with the given message. *)
Definition NewInfrastructureError (message : string) : ErrorType :=
  {| Kind := InfrastructureError; Message := message |}.

(** [type Result[T any] struct { value T; err ErrorType; hasError bool }] *)
Record Result (T : Type) : Type := mkResult {
  value : T;
  err : ErrorType;
  hasError : bool
}.

Arguments mkResult {T} value err hasError.
Arguments value {T} r.
Arguments err {T} r.
Arguments hasError {T} r.

Section Methods.
Context {T : Type} `{Zero T}.

(** Modelled from the spec: [Ok(value)] constructs a success Result
    holding [value]; the other fields keep their zero values. *)
Definition Ok (v : T) : Result T :=
  {| value := v; err := zero; hasError := false |}.

(** Modelled from the spec: [Err(error)] constructs a failure Result
    holding [error]. *)
Definition Err (e : ErrorType) : Result T :=
  {| value := zero; err := e; hasError := true |}.

(** Modelled from the spec: [IsOk], the predicate of the success
    variant. *)
Definition IsOk (r : Result T) : bool := negb (hasError r).

(** Modelled from the spec: [IsError], the predicate of the failure
    variant. *)
Definition IsError (r : Result T) : bool := hasError r.

(** Modelled from the spec: [Value] returns the payload of a success and
    fails fatally (panics) on a failure. *)
Definition Value (r : Result T) : Outcome T :=
  if hasError r then Panicked "called Value on an error Result"
  else Returned (value r).

(** Modelled from the spec: [ErrorInfo] returns the error of a failure
    and fails fatally (panics) on a success. *)
Definition ErrorInfo (r : Result T) : Outcome ErrorType :=
  if hasError r then Returned (err r)
  else Panicked "called ErrorInfo on an ok Result".

(** Modelled from the spec: [UnwrapOr] returns the payload of a success,
    else the default. *)
Definition UnwrapOr (r : Result T) (default : T) : T :=
  if hasError r then default else value r.
End Methods.

Section Combinators.
Context {St T U : Type} `{Zero T} `{Zero U}.

(** Modelled from the spec: [Map(fn)] is [Ok(fn(value))] on a success
    and the same failure on a failure.  [fn] is a Go function: it runs
    in [Go St], so that a call of it shows in the state or as a
    panic. *)
Definition Map (r : Result T) (fn : T -> Go St U) : Go St (Result U) :=
  if hasError r then ret (Err (err r))
  else (u <- fn (value r);; ret (Ok u)).

(** Modelled from the spec: [AndThen(fn)] is [fn(value)] on a success
    and the same failure, without a call of [fn], on a failure. *)
Definition AndThen (r : Result T) (fn : T -> Go St (Result U))
  : Go St (Result U) :=
  if hasError r then ret (Err (err r))
  else fn (value r).
End Combinators.

End domerr.

(** ** domain/valueobject *)

Module valueobject.
Import domerr.

(** [const MaxNameLength = 100] *)
Definition MaxNameLength : Z := 100.

(** [type Person struct { name string }] *)
Record Person : Type := mkPerson { name : string }.

#[global] Instance Zero_Person : Zero Person := {| name := zero |}.

(** Modelled from the spec: [CreatePerson], whose body is not among the
    sources.  It fails with a [ValidationError] naming the empty name when
    the trimmed name has zero length, then with a [ValidationError] naming
    the length when the name has more than [MaxNameLength] code points,
    and is [Ok(Person{name})] otherwise.  The messages are those of the
    test guide's table of error cases. *)
Definition CreatePerson (name : string) : Result Person :=
  if len (strings.TrimSpace name) =? 0 then
    Err (NewValidationError "name cannot be empty")
  else if MaxNameLength <? utf8.RuneCountInString name then
    Err (NewValidationError "name exceeds max length")
  else
    Ok {| name := name |}.

(** Modelled from the spec: [Name], the accessor of the field. *)
Definition Name (p : Person) : string := name p.

(** Modelled from the spec: [GreetingMessage] is
    ["Hello, " + name + "!"]. *)
Definition GreetingMessage (p : Person) : string :=
  "Hello, " ++ name p ++ "!".

End valueobject.

(** ** context, io, fmt *)

Module context.

(** The channel [ctx.Done()] returns, on which nothing is ever sent: nil
    (a context that cannot be cancelled), open, or closed (cancelled). *)
Inductive DoneChan : Type :=
| nil_chan
| open_chan
| closed_chan.

(** [context.Context], by what the code reads of it. *)
Record Context : Type := mkContext { Done : DoneChan }.

Definition Background : Context := {| Done := nil_chan |}.

(** [ctx, cancel := context.WithCancel(parent)], before and after
    [cancel()]. *)
Definition WithCancel (cancelled : bool) : Context :=
  {| Done := if cancelled then closed_chan else open_chan |}.

(** A receive from [c] can proceed at once: only on a closed channel.  It
    decides the [case <-ctx.Done()] of a [select] with a [default]. *)
Definition recv_ready (c : DoneChan) : bool :=
  match c with
  | closed_chan => true
  | open_chan | nil_chan => false
  end.

End context.

Module io.

(** [io.Writer]: [Write(p []byte) (n int, err error)], over the state
    [WriterState] of whatever the writer writes to. *)
Class Writer (W : Type) : Type := {
  WriterState : Type;
  Write : W -> string -> Go WriterState (Z * option error)
}.

End io.

Module fmt.

(** [Fprintln(w, a)] for one string operand: the operand and a newline go
    to [w] in one call of [w.Write], whose results it returns. *)
Definition newline : string := String "010" EmptyString.

Definition Fprintln {W} `{io.Writer W} (w : W) (a : string)
  : Go io.WriterState (Z * option error) :=
  io.Write w (a ++ newline).

End fmt.

(** ** application *)

Module model.

(** Modelled from the spec: [Unit], the marker of "no payload", and its
    only value [UnitValue]. *)
Inductive Unit : Type := UnitValue.

#[global] Instance Zero_Unit : Zero Unit := UnitValue.

End model.

Module command.

(** Modelled from the spec: [GreetCommand], the input DTO [{name}] with
    its factory and its accessor. *)
Record GreetCommand : Type := NewGreetCommand { Name : string }.

End command.

Module outbound.
Import domerr.

(** [type WriterPort interface { Write(ctx, message) Result[Unit] }], over
    the state [PortState] of the implementation. *)
Class WriterPort (W : Type) : Type := {
  PortState : Type;
  Write : W -> context.Context -> string -> Go PortState (Result model.Unit)
}.

End outbound.

Module usecase.
Import domerr valueobject model.

(** [type GreetUseCase[W outbound.WriterPort] struct { writer W }] *)
Record GreetUseCase (W : Type) : Type := mkGreetUseCase { writer : W }.

Arguments mkGreetUseCase {W} writer.
Arguments writer {W} g.

Definition NewGreetUseCase {W} (writer : W) : GreetUseCase W :=
  {| writer := writer |}.

(** [func (uc *GreetUseCase[W]) Execute(ctx, cmd) Result[Unit]] *)
Definition Execute {W} `{outbound.WriterPort W} (uc : GreetUseCase W)
    (ctx : context.Context) (cmd : command.GreetCommand)
  : Go outbound.PortState (Result model.Unit) :=
  let personResult := CreatePerson (command.Name cmd) in
  if IsError personResult then
    (e <- lift (ErrorInfo personResult);;
     ret (Err e))
  else
    (person <- lift (Value personResult);;
     outbound.Write (writer uc) ctx (GreetingMessage person)).

End usecase.

(** ** infrastructure/adapter *)

Module adapter.
Import domerr model.

(** [type ConsoleWriter struct { w io.Writer }] *)
Record ConsoleWriter (W : Type) : Type := mkConsoleWriter { w : W }.

Arguments mkConsoleWriter {W} w.
Arguments w {W} c.

Definition NewConsoleWriterWithOutput {W} (w : W) : ConsoleWriter W :=
  {| w := w |}.

(** [func NewConsoleWriter() *ConsoleWriter { return &ConsoleWriter{w: os.Stdout} }],
    with the process's standard output [Stdout] as a parameter. *)
Definition NewConsoleWriter {W} (Stdout : W) : ConsoleWriter W :=
  {| w := Stdout |}.

(** The body of [Write] below its [defer]. *)
Definition Write_body {W} `{io.Writer W} (cw : ConsoleWriter W)
    (ctx : context.Context) (message : string)
  : Go io.WriterState (Result model.Unit) :=
  (* select { case <-ctx.Done(): return ...; default: } *)
  if context.recv_ready (context.Done ctx) then
    ret (Err (NewInfrastructureError "context cancelled"))
  else
    ('(_, err) <- fmt.Fprintln (w cw) message;;
     match err with
     | Some e => ret (Err (NewInfrastructureError (Error e)))
     | None => ret (Ok model.UnitValue)
     end).

(** [func (cw *ConsoleWriter) Write(ctx, message) (result Result[Unit])],
    as the design specification lists it: the result is named, and the
    deferred function sets it when it recovers a panic.  The messages of
    the three errors are those of the infrastructure README's listing of
    the same body. *)
Definition Write {W} `{io.Writer W} (cw : ConsoleWriter W)
    (ctx : context.Context) (message : string)
  : Go io.WriterState (Result model.Unit) :=
  defer_recover
    (fun _ => Err (NewInfrastructureError "panic recovered"))
    (Write_body cw ctx message).

(** [ConsoleWriter] implements [outbound.WriterPort]. *)
#[global] Instance ConsoleWriter_WriterPort {W} `{io.Writer W}
  : outbound.WriterPort (ConsoleWriter W) :=
  {| outbound.PortState := io.WriterState; outbound.Write := Write |}.

End adapter.

(** ** Test doubles and probes

    The writers of the test guide, and wrappers that record the calls that
    reach a collaborator; a call is in the record whether it returns or
    panics. *)

Module probe.
Import domerr model.

(** [bytes.Buffer] as an [io.Writer]: its state is its content, a write
    appends all of [p] and reports [len(p), nil]. *)
Inductive Buffer : Type := NewBuffer.

#[global] Instance Buffer_Writer : io.Writer Buffer :=
  {| io.WriterState := string;
     io.Write := fun _ p content => (Returned (len p, None), content ++ p) |}.

(** A stream whose [Write] panics with [v], having written nothing. *)
Record Faulty : Type := mkFaulty { fault : string }.

#[global] Instance Faulty_Writer : io.Writer Faulty :=
  {| io.WriterState := unit;
     io.Write := fun f _ => panic (fault f) |}.

(** A stream whose [Write] reports the error [e], having written nothing. *)
Record Failing : Type := mkFailing { failure : error }.

#[global] Instance Failing_Writer : io.Writer Failing :=
  {| io.WriterState := unit;
     io.Write := fun f _ => ret (0, Some (failure f)) |}.

(** A stream that passes every write on to [tapped] and keeps the list of
    the buffers it was called with. *)
Record Tap (W : Type) : Type := mkTap { tapped : W }.

Arguments mkTap {W} tapped.
Arguments tapped {W} t.

#[global] Instance Tap_Writer {W} `{io.Writer W} : io.Writer (Tap W) :=
  {| io.WriterState := (io.WriterState (W := W) * list string)%type;
     io.Write := fun t p '(st, calls) =>
       let '(o, st') := io.Write (tapped t) p st in
       (o, (st', (calls ++ [p])%list)) |}.

(** A port that passes every write on to [inner] and keeps the list of the
    messages it was called with. *)
Record Recorder (W : Type) : Type := mkRecorder { inner : W }.

Arguments mkRecorder {W} inner.
Arguments inner {W} r.

#[global] Instance Recorder_WriterPort {W} `{outbound.WriterPort W}
  : outbound.WriterPort (Recorder W) :=
  {| outbound.PortState := (outbound.PortState (W := W) * list string)%type;
     outbound.Write := fun r ctx message '(st, calls) =>
       let '(o, st') := outbound.Write (inner r) ctx message st in
       (o, (st', (calls ++ [message])%list)) |}.

(** The test guide's [MockWriter{Buffer, Err}]: it reports [Err] as an
    [InfrastructureError] when set, and appends the message to its buffer
    otherwise. *)
Record MockWriter : Type := mkMockWriter { MockErr : option error }.

#[global] Instance MockWriter_WriterPort : outbound.WriterPort MockWriter :=
  {| outbound.PortState := string;
     outbound.Write := fun m _ msg buffer =>
       match MockErr m with
       | Some e => (Returned (Err (NewInfrastructureError (Error e))), buffer)
       | None => (Returned (Ok UnitValue), buffer ++ msg)
       end |}.

(** A port whose [Write] panics with [port_fault], an adapter that fails to
    guard its boundary. *)
Record FaultyPort : Type := mkFaultyPort { port_fault : string }.

#[global] Instance FaultyPort_WriterPort : outbound.WriterPort FaultyPort :=
  {| outbound.PortState := unit;
     outbound.Write := fun p _ _ => panic (port_fault p) |}.

(** A function argument that counts the calls made to it. *)
Definition counting {St A B} (f : A -> Go St B) : A -> Go (St * nat) B :=
  fun a '(st, n) =>
    let '(o, st') := f a st in
    (o, (st', S n)).

End probe.

(** ** api/adapter/desktop *)

Module desktop.
Import domerr model.

(** [type Greeter struct { useCase *usecase.GreetUseCase[*adapter.ConsoleWriter] }] *)
Record Greeter (W : Type) : Type := mkGreeter {
  useCase : usecase.GreetUseCase (adapter.ConsoleWriter W)
}.

Arguments mkGreeter {W} useCase.
Arguments useCase {W} g.

(** [func NewGreeter() *Greeter], over the standard output [Stdout]. *)
Definition NewGreeter {W} (Stdout : W) : Greeter W :=
  let writer := adapter.NewConsoleWriter Stdout in
  let uc := usecase.NewGreetUseCase writer in
  {| useCase := uc |}.

(** [func (g *Greeter) Execute(ctx, cmd) api.Result[api.Unit]] *)
Definition Execute {W} `{io.Writer W} (g : Greeter W)
    (ctx : context.Context) (cmd : command.GreetCommand)
  : Go io.WriterState (Result Unit) :=
  usecase.Execute (useCase g) ctx cmd.

End desktop.

(** ** The two patterns of the design specification *)

Module pattern.
Import domerr model.

(** [fmt.Sprintf("panic: %v", r)], on the text [r] of the panic value. *)
Definition Sprintf_panic (r : string) : string := "panic: " ++ r.

(** The panic recovery pattern,
    [func (adapter *SomeAdapter) Operation() (result Result[T])]: a deferred
    recover in front of [body], the operation that might panic. *)
Definition Operation {St T} `{Zero T} (body : Go St (Result T))
  : Go St (Result T) :=
  defer_recover
    (fun r => Err (NewInfrastructureError (Sprintf_panic r)))
    body.

(** The railway pattern, [func Execute(...) Result[Unit]], over its two
    operations. *)
Definition Railway {St A B} `{Zero A} `{Zero B}
    (operation1 : Go St (Result A)) (operation2 : A -> Go St (Result B))
  : Go St (Result Unit) :=
  result1 <- operation1;;
  if IsError result1 then
    (e <- lift (ErrorInfo result1);;
     ret (Err e))
  else
    (v <- lift (Value result1);;
     result2 <- operation2 v;;
     if IsError result2 then
       (e <- lift (ErrorInfo result2);;
        ret (Err e))
     else ret (Ok UnitValue)).

End pattern.

(** ** Vocabulary of the statements *)

Section Vocabulary.
Import domerr valueobject model.

(** The two errors of [CreatePerson]. *)
Definition empty_name_error : ErrorType :=
  NewValidationError "name cannot be empty".

Definition name_too_long_error : ErrorType :=
  NewValidationError "name exceeds max length".

(** What [CreatePerson] answers to a name without content: the error of
    the empty name, which is not the error of the length. *)
Definition reports_empty_name (s : string) : Prop :=
  CreatePerson s = Err empty_name_error
  /\ IsError (CreatePerson s) = true
  /\ Kind (err (CreatePerson s)) = ValidationError
  /\ Message (err (CreatePerson s)) = "name cannot be empty"
  /\ err (CreatePerson s) <> name_too_long_error.

(** The two-character name of scenario D, six bytes long. *)
Definition shijie : string := "世界".

(** A Result that is a failure of kind [InfrastructureError]. *)
Definition infrastructure_failure (r : Result Unit) : Prop :=
  IsError r = true /\ Kind (err r) = InfrastructureError.

(** The use case [uc] with a recorder in front of its writer. *)
Definition recorded {W} (uc : usecase.GreetUseCase W)
  : usecase.GreetUseCase (probe.Recorder W) :=
  usecase.NewGreetUseCase (probe.mkRecorder (usecase.writer uc)).

(** The adapter [cw] with a tap in front of its stream. *)
Definition tapped {W} (cw : adapter.ConsoleWriter W)
  : adapter.ConsoleWriter (probe.Tap W) :=
  adapter.NewConsoleWriterWithOutput (probe.mkTap (adapter.w cw)).

(** The composition root: the use case over a console writer over the
    stream [out], with a tap in front of the stream. *)
Definition greeter {W} (out : W)
  : usecase.GreetUseCase (adapter.ConsoleWriter (probe.Tap W)) :=
  usecase.NewGreetUseCase
    (adapter.NewConsoleWriterWithOutput (probe.mkTap out)).

End Vocabulary.

(** * Properties *)

(** ** Result *)

Section ResultProperties.
Import domerr.
Context {St T U : Type} `{Zero T} `{Zero U}.

Lemma IsError_Err (e : ErrorType) : IsError (Err (T := T) e) = true.
Proof. reflexivity. Qed.

Lemma IsOk_Ok (v : T) : IsOk (Ok v) = true.
Proof. reflexivity. Qed.

Lemma ErrorInfo_Err (e : ErrorType) : ErrorInfo (Err (T := T) e) = Returned e.
Proof. reflexivity. Qed.

Lemma Value_Ok (v : T) : Value (Ok v) = Returned v.
Proof. reflexivity. Qed.

Lemma IsOk_IsError (r : Result T) : IsOk r = negb (IsError r).
Proof. reflexivity. Qed.

(** On a failure [Map] and [AndThen] return at once, whatever the
    function is. *)
Lemma Map_failure (r : Result T) (fn : T -> Go St U) (st : St) :
  IsError r = true -> Map r fn st = (Returned (Err (err r)), st).
Proof.
  unfold IsError, Map. intros ->. reflexivity.
Qed.

Lemma AndThen_failure (r : Result T) (fn : T -> Go St (Result U)) (st : St) :
  IsError r = true -> AndThen r fn st = (Returned (Err (err r)), st).
Proof.
  unfold IsError, AndThen. intros ->. reflexivity.
Qed.

(** On a success they run the function on the payload. *)
Lemma Map_success (v : T) (fn : T -> Go St U) :
  Map (Ok v) fn = bind (fn v) (fun u => ret (Ok u)).
Proof. reflexivity. Qed.

Lemma AndThen_success (v : T) (fn : T -> Go St (Result U)) :
  AndThen (Ok v) fn = fn v.
Proof. reflexivity. Qed.

(** C8. [Map] and [AndThen] on the failure [Err(e)] return that failure
    (an [Err] of the same [e], so the same kind and message) and never
    call their function argument: whatever the function would do to the
    state, or whether it would panic, the state is as before and the call
    returns; in particular the counter of a counting function stays where
    it was. *)
Theorem Map_AndThen_Err_short_circuit
    (e : ErrorType) (f : T -> Go St U) (g : T -> Go St (Result U))
    (st : St) (n : nat) :
  Map (Err e) f st = (Returned (Err e), st)
  /\ AndThen (Err e) g st = (Returned (Err e), st)
  /\ Map (Err e) (probe.counting f) (st, n) = (Returned (Err e), (st, n))
  /\ AndThen (Err e) (probe.counting g) (st, n) = (Returned (Err e), (st, n))
  /\ Kind (err (Err (T := U) e)) = Kind e
  /\ Message (err (Err (T := U) e)) = Message e.
Proof.
  repeat split.
Qed.

(** C9. [Value] returns the payload of a success and panics on a failure;
    [ErrorInfo] returns the error of a failure and panics on a success;
    and whenever [IsOk] holds, [Value] returns. *)
Theorem Value_ErrorInfo_partial :
  (forall v : T, Value (Ok v) = Returned v)
  /\ (forall e, exists m, Value (Err (T := T) e) = Panicked m)
  /\ (forall e, ErrorInfo (Err (T := T) e) = Returned e)
  /\ (forall v : T, exists m, ErrorInfo (Ok v) = Panicked m)
  /\ (forall r : Result T, IsOk r = true -> Value r = Returned (value r))
  /\ (forall r : Result T, IsOk r = false -> exists m, Value r = Panicked m)
  /\ (forall r : Result T, IsError r = true -> ErrorInfo r = Returned (err r))
  /\ (forall r : Result T, IsError r = false ->
        exists m, ErrorInfo r = Panicked m).
Proof.
  unfold IsOk, IsError, Value, ErrorInfo.
  repeat split; intros; cbn; eauto;
    destruct (hasError r); first [discriminate | reflexivity | eauto].
Qed.

End ResultProperties.

(** [Value] on the Result of a validated name, as the README's example reads
    it after [IsOk]. *)
Lemma Value_ErrorInfo_partial_witness :
  domerr.IsOk (valueobject.CreatePerson "Alice") = true
  /\ domerr.Value (valueobject.CreatePerson "Alice")
     = Returned (domerr.value (valueobject.CreatePerson "Alice")).
Proof.
  split; [reflexivity |].
  apply (proj1 (proj2 (proj2 (proj2 (proj2
           (Value_ErrorInfo_partial (T := valueobject.Person))))))).
  reflexivity.
Defined.

(** ** Strings *)

Section StringProperties.

Lemma byte_val_range (c : ascii) : 0 <= byte_val c < 256.
Proof.
  unfold byte_val.
  pose proof (N_ascii_bounded c) as Hc.
  lia.
Qed.

(** A byte below [RuneSelf] is a rune of its own. *)
Lemma DecodeRuneInString_ascii (c : ascii) (t : string) :
  byte_val c < utf8.RuneSelf ->
  utf8.DecodeRuneInString (String c t) = (byte_val c, 1%nat).
Proof.
  intros Hc. unfold utf8.RuneSelf in Hc.
  unfold utf8.DecodeRuneInString, utf8.first.
  replace (byte_val c <? 128) with true by (symmetry; apply Z.ltb_lt; lia).
  cbn. now rewrite Z.ldiff_0_r, Z.lor_0_r.
Qed.

Lemma asciiSpace_IsSpace (c : ascii) :
  strings.asciiSpace c = true ->
  byte_val c < utf8.RuneSelf /\ unicode.IsSpace (byte_val c) = true.
Proof.
  unfold strings.asciiSpace, unicode.IsSpace, unicode.MaxLatin1, utf8.RuneSelf.
  pose proof (byte_val_range c) as Hr.
  intros Hs.
  repeat (apply orb_true_iff in Hs; destruct Hs as [Hs | Hs]);
    apply Z.eqb_eq in Hs; rewrite Hs; split; try lia; reflexivity.
Qed.

Lemma trim_left_asciiSpace (s : string) :
  strings.all_asciiSpace s = true ->
  strings.trim_left unicode.IsSpace 0 s = EmptyString.
Proof.
  induction s as [| c t IH]; [reflexivity |].
  cbn [strings.all_asciiSpace]. intros Hs.
  apply andb_true_iff in Hs. destruct Hs as [Hc Ht].
  destruct (asciiSpace_IsSpace c Hc) as [Hlt Hsp].
  cbn [strings.trim_left].
  rewrite (DecodeRuneInString_ascii c t Hlt), Hsp.
  cbn. auto.
Qed.

(** A string of ASCII white space only trims to the empty string. *)
Lemma TrimSpace_asciiSpace (s : string) :
  strings.all_asciiSpace s = true -> strings.TrimSpace s = EmptyString.
Proof.
  intros Hs.
  unfold strings.TrimSpace, strings.TrimFunc, strings.TrimLeftFunc.
  rewrite (trim_left_asciiSpace s Hs). reflexivity.
Qed.

Lemma all_asciiSpace_Repeat (n : nat) :
  strings.all_asciiSpace (strings.Repeat " " n) = true.
Proof.
  induction n as [| n IH]; [reflexivity | exact IH].
Qed.

(** Runes are counted, not bytes: on ASCII the two agree, and a string of
    [n] copies of a single-byte character has [n] runes. *)
Lemma count_runes_Repeat_ascii (c : ascii) (n : nat) :
  byte_val c < utf8.RuneSelf ->
  utf8.count_runes 0 (strings.Repeat (String c EmptyString) n) = n.
Proof.
  intros Hc. induction n as [| n IH]; [reflexivity |].
  cbn [strings.Repeat String.append utf8.count_runes].
  rewrite (DecodeRuneInString_ascii c _ Hc). cbn [snd Nat.sub].
  now rewrite IH.
Qed.

End StringProperties.

(** ** Person *)

Section PersonProperties.
Import domerr valueobject.

(** The three outcomes of [CreatePerson], by its two tests in order. *)
Lemma CreatePerson_empty (s : string) :
  len (strings.TrimSpace s) = 0 ->
  CreatePerson s = Err empty_name_error.
Proof.
  intros Hs. unfold CreatePerson. rewrite Hs. reflexivity.
Qed.

Lemma CreatePerson_too_long (s : string) :
  len (strings.TrimSpace s) <> 0 ->
  MaxNameLength < utf8.RuneCountInString s ->
  CreatePerson s = Err name_too_long_error.
Proof.
  intros Hs Hn. unfold CreatePerson.
  apply Z.eqb_neq in Hs. apply Z.ltb_lt in Hn.
  rewrite Hs, Hn. reflexivity.
Qed.

Lemma CreatePerson_valid (s : string) :
  len (strings.TrimSpace s) <> 0 ->
  utf8.RuneCountInString s <= MaxNameLength ->
  CreatePerson s = Ok {| name := s |}.
Proof.
  intros Hs Hn. unfold CreatePerson.
  apply Z.eqb_neq in Hs. apply Z.ltb_ge in Hn.
  rewrite Hs, Hn. reflexivity.
Qed.

(** Whatever the name, a failure of [CreatePerson] is a
    [ValidationError]. *)
Lemma CreatePerson_failure_kind (s : string) :
  IsError (CreatePerson s) = true ->
  Kind (err (CreatePerson s)) = ValidationError.
Proof.
  unfold CreatePerson.
  destruct (len (strings.TrimSpace s) =? 0); [reflexivity |].
  destruct (MaxNameLength <? utf8.RuneCountInString s);
    [reflexivity | discriminate].
Qed.

(** C2. A name of more than 100 code points is refused with a
    [ValidationError].  The limit counts code points, not bytes: "世界"
    has two code points in six bytes, is accepted and greets as
    "Hello, 世界!"; a name of a hundred "世" has 300 bytes and is accepted,
    one of a hundred and one is refused. *)
Theorem CreatePerson_over_100_code_points :
  (forall s : string,
      100 < utf8.RuneCountInString s ->
      IsError (CreatePerson s) = true
      /\ Kind (err (CreatePerson s)) = ValidationError)
  /\ (utf8.RuneCountInString shijie = 2
      /\ len shijie = 6
      /\ CreatePerson shijie = Ok {| name := shijie |}
      /\ GreetingMessage {| name := shijie |} = "Hello, 世界!")
  /\ (len (strings.Repeat "世" 100) = 300
      /\ CreatePerson (strings.Repeat "世" 100)
         = Ok {| name := strings.Repeat "世" 100 |}
      /\ CreatePerson (strings.Repeat "世" 101) = Err name_too_long_error).
Proof.
  split; [| split; repeat split; vm_compute; reflexivity].
  intros s Hs.
  assert (He : IsError (CreatePerson s) = true).
  { destruct (Z.eq_dec (len (strings.TrimSpace s)) 0) as [Hz | Hz].
    - now rewrite (CreatePerson_empty s Hz).
    - now rewrite (CreatePerson_too_long s Hz Hs). }
  split; [exact He | exact (CreatePerson_failure_kind s He)].
Qed.

Lemma CreatePerson_over_100_code_points_witness :
  100 < utf8.RuneCountInString (strings.Repeat "a" 101)
  /\ IsError (CreatePerson (strings.Repeat "a" 101)) = true
  /\ Kind (err (CreatePerson (strings.Repeat "a" 101))) = ValidationError.
Proof.
  assert (Hs : 100 < utf8.RuneCountInString (strings.Repeat "a" 101))
    by (vm_compute; reflexivity).
  split; [exact Hs |].
  exact (proj1 CreatePerson_over_100_code_points _ Hs).
Defined.

(** A name of one space has one code point, and [CreatePerson] refuses
    it: its trimmed form is empty. *)
Lemma CreatePerson_one_space_refused :
  1 <= utf8.RuneCountInString " " <= 100
  /\ IsOk (CreatePerson " ") = false
  /\ CreatePerson " " = Err empty_name_error.
Proof.
  vm_compute. repeat split; discriminate.
Qed.

(** C3, amended. A name of 1 to 100 code points whose trimmed form is not
    empty is accepted, and the Person's [Name] is the name as given,
    untrimmed. *)
Theorem CreatePerson_accepts (s : string) :
  1 <= utf8.RuneCountInString s <= 100 ->
  len (strings.TrimSpace s) <> 0 ->
  IsOk (CreatePerson s) = true
  /\ exists p : Person, Value (CreatePerson s) = Returned p /\ Name p = s.
Proof.
  intros [_ Hn] Hs.
  rewrite (CreatePerson_valid s Hs Hn).
  split; [reflexivity |].
  exists {| name := s |}. split; reflexivity.
Qed.

Lemma CreatePerson_accepts_witness :
  IsOk (CreatePerson " Bob Smith ") = true
  /\ exists p : Person,
       Value (CreatePerson " Bob Smith ") = Returned p
       /\ Name p = " Bob Smith ".
Proof.
  apply (CreatePerson_accepts " Bob Smith ").
  - vm_compute. split; discriminate.
  - vm_compute. discriminate.
Defined.

(** C4. A name whose trimmed form has zero length is refused with the
    [ValidationError] of the empty name, however long it is: the test for
    emptiness comes first.  Names of ASCII white space only are such
    names, at any length. *)
Theorem CreatePerson_empty_before_length :
  (forall s : string, len (strings.TrimSpace s) = 0 -> reports_empty_name s)
  /\ (forall s : string,
        strings.all_asciiSpace s = true ->
        len (strings.TrimSpace s) = 0 /\ reports_empty_name s)
  /\ (forall n : nat,
        utf8.RuneCountInString (strings.Repeat " " n) = Z.of_nat n
        /\ reports_empty_name (strings.Repeat " " n)).
Proof.
  assert (Hmain : forall s, len (strings.TrimSpace s) = 0 ->
                            reports_empty_name s).
  { intros s Hs. unfold reports_empty_name.
    rewrite (CreatePerson_empty s Hs).
    repeat split. discriminate. }
  assert (Hblank : forall s, strings.all_asciiSpace s = true ->
                             len (strings.TrimSpace s) = 0).
  { intros s Hs. now rewrite (TrimSpace_asciiSpace s Hs). }
  split; [exact Hmain | split].
  - intros s Hs. split; [exact (Hblank s Hs) | exact (Hmain s (Hblank s Hs))].
  - intros n. split.
    + unfold utf8.RuneCountInString.
      now rewrite (count_runes_Repeat_ascii " "%char n ltac:(reflexivity)).
    + exact (Hmain _ (Hblank _ (all_asciiSpace_Repeat n))).
Qed.

Lemma CreatePerson_empty_before_length_witness :
  len (strings.TrimSpace (strings.Repeat " " 101)) = 0
  /\ MaxNameLength < utf8.RuneCountInString (strings.Repeat " " 101)
  /\ reports_empty_name (strings.Repeat " " 101).
Proof.
  assert (Hs : len (strings.TrimSpace (strings.Repeat " " 101)) = 0)
    by (vm_compute; reflexivity).
  split; [exact Hs | split].
  - vm_compute. reflexivity.
  - exact (proj1 CreatePerson_empty_before_length _ Hs).
Defined.

End PersonProperties.

(** ** The greet use case *)

Section UseCaseLemmas.
Import domerr valueobject model.
Context {W : Type} `{outbound.WriterPort W}.

Lemma CreatePerson_IsOk_inv (s : string) :
  IsOk (CreatePerson s) = true -> CreatePerson s = Ok {| name := s |}.
Proof.
  unfold CreatePerson.
  destruct (len (strings.TrimSpace s) =? 0); [discriminate |].
  destruct (MaxNameLength <? utf8.RuneCountInString s);
    [discriminate | reflexivity].
Qed.

(** [Execute] on a name that fails validation. *)
Lemma Execute_invalid (uc : usecase.GreetUseCase W) (ctx : context.Context)
    (cmd : command.GreetCommand) (st : outbound.PortState) :
  IsError (CreatePerson (command.Name cmd)) = true ->
  usecase.Execute uc ctx cmd st
  = (Returned (Err (err (CreatePerson (command.Name cmd)))), st).
Proof.
  intros He. unfold usecase.Execute.
  rewrite He. unfold ErrorInfo. unfold IsError in He. rewrite He.
  reflexivity.
Qed.

(** [Execute] on a name that passes validation. *)
Lemma Execute_valid (uc : usecase.GreetUseCase W) (ctx : context.Context)
    (cmd : command.GreetCommand) :
  IsOk (CreatePerson (command.Name cmd)) = true ->
  usecase.Execute uc ctx cmd
  = outbound.Write (usecase.writer uc) ctx
      ("Hello, " ++ command.Name cmd ++ "!").
Proof.
  intros Hok. unfold usecase.Execute.
  rewrite (CreatePerson_IsOk_inv _ Hok). reflexivity.
Qed.

End UseCaseLemmas.

Section UseCaseProperties.
Import domerr valueobject model.
Context {W : Type} `{outbound.WriterPort W}.

(** C5. When the name of the command fails validation, [Execute] returns
    the failure of [CreatePerson], an [Err] of the very same error, and
    the writer is not called: the writer's state is as before, and a
    recorder in front of the writer has recorded nothing new. *)
Theorem Execute_forwards_validation_failure
    (uc : usecase.GreetUseCase W) (ctx : context.Context)
    (cmd : command.GreetCommand) (st : outbound.PortState)
    (calls : list string) :
  IsError (CreatePerson (command.Name cmd)) = true ->
  let failure := err (CreatePerson (command.Name cmd)) in
  usecase.Execute uc ctx cmd st = (Returned (Err failure), st)
  /\ usecase.Execute (recorded uc) ctx cmd (st, calls)
     = (Returned (Err failure), (st, calls))
  /\ err (Err (T := Unit) failure) = failure
  /\ Kind failure = ValidationError.
Proof.
  intros He failure.
  split; [exact (Execute_invalid uc ctx cmd st He) |].
  split; [exact (Execute_invalid (recorded uc) ctx cmd (st, calls) He) |].
  split; [reflexivity |].
  exact (CreatePerson_failure_kind _ He).
Qed.

(** C6. When the name of the command passes validation, [Execute] is one
    call of the writer with "Hello, " + name + "!", and its outcome and
    final state are those of that call; a recorder in front of the writer
    has recorded exactly that one message. *)
Theorem Execute_writes_greeting_once
    (uc : usecase.GreetUseCase W) (ctx : context.Context)
    (cmd : command.GreetCommand) (st : outbound.PortState)
    (calls : list string) :
  IsOk (CreatePerson (command.Name cmd)) = true ->
  let message := "Hello, " ++ command.Name cmd ++ "!" in
  let written := outbound.Write (usecase.writer uc) ctx message st in
  usecase.Execute uc ctx cmd st = written
  /\ usecase.Execute (recorded uc) ctx cmd (st, calls)
     = (fst written, (snd written, (calls ++ [message])%list)).
Proof.
  intros Hok message written.
  split.
  - now rewrite (Execute_valid uc ctx cmd Hok).
  - rewrite (Execute_valid (recorded uc) ctx cmd Hok).
    subst written message. cbn.
    now destruct (outbound.Write (usecase.writer uc) ctx _ st).
Qed.

End UseCaseProperties.

(** The two theorems on the test guide's [MockWriter]: an empty name leaves
    its buffer empty, "Alice" puts the greeting into it. *)
Lemma Execute_forwards_validation_failure_witness :
  domerr.IsError (valueobject.CreatePerson "") = true
  /\ usecase.Execute (usecase.NewGreetUseCase (probe.mkMockWriter None))
       context.Background (command.NewGreetCommand "") ""
     = (Returned (domerr.Err empty_name_error), "")
  /\ usecase.Execute
       (recorded (usecase.NewGreetUseCase (probe.mkMockWriter None)))
       context.Background (command.NewGreetCommand "") ("", [])
     = (Returned (domerr.Err empty_name_error), ("", [])).
Proof.
  split; [reflexivity |].
  pose proof (Execute_forwards_validation_failure
                (usecase.NewGreetUseCase (probe.mkMockWriter None))
                context.Background (command.NewGreetCommand "") "" []
                eq_refl) as [Hrun [Hrec _]].
  split; [exact Hrun | exact Hrec].
Defined.

Lemma Execute_writes_greeting_once_witness :
  domerr.IsOk (valueobject.CreatePerson "Alice") = true
  /\ usecase.Execute (usecase.NewGreetUseCase (probe.mkMockWriter None))
       context.Background (command.NewGreetCommand "Alice") ""
     = (Returned (domerr.Ok model.UnitValue), "Hello, Alice!")
  /\ usecase.Execute
       (recorded (usecase.NewGreetUseCase (probe.mkMockWriter None)))
       context.Background (command.NewGreetCommand "Alice") ("", [])
     = (Returned (domerr.Ok model.UnitValue),
        ("Hello, Alice!", ["Hello, Alice!"])).
Proof.
  split; [reflexivity |].
  pose proof (Execute_writes_greeting_once
                (usecase.NewGreetUseCase (probe.mkMockWriter None))
                context.Background (command.NewGreetCommand "Alice") "" []
                eq_refl) as [Hrun Hrec].
  split; [exact Hrun | exact Hrec].
Defined.

(** ** The console adapter *)

Section AdapterLemmas.
Import domerr model.
Context {W : Type} `{io.Writer W}.

(** [Write] never lets a panic through. *)
Lemma Write_returns (cw : adapter.ConsoleWriter W) (ctx : context.Context)
    (message : string) (st : io.WriterState) :
  exists r st', adapter.Write cw ctx message st = (Returned r, st').
Proof.
  unfold adapter.Write, defer_recover.
  destruct (adapter.Write_body cw ctx message st) as [[r | v] st']; eauto.
Qed.

(** The three ways through [Write]. *)
Lemma Write_cancelled (cw : adapter.ConsoleWriter W) (ctx : context.Context)
    (message : string) (st : io.WriterState) :
  context.recv_ready (context.Done ctx) = true ->
  adapter.Write cw ctx message st
  = (Returned (Err (NewInfrastructureError "context cancelled")), st).
Proof.
  intros Hc. unfold adapter.Write, defer_recover, adapter.Write_body.
  rewrite Hc. reflexivity.
Qed.

Lemma Write_stream_panics (cw : adapter.ConsoleWriter W)
    (ctx : context.Context) (message : string) (st st' : io.WriterState)
    (v : string) :
  context.recv_ready (context.Done ctx) = false ->
  io.Write (adapter.w cw) (message ++ fmt.newline) st = (Panicked v, st') ->
  adapter.Write cw ctx message st
  = (Returned (Err (NewInfrastructureError "panic recovered")), st').
Proof.
  intros Hc Hw.
  unfold adapter.Write, defer_recover, adapter.Write_body, fmt.Fprintln, bind.
  rewrite Hc, Hw. reflexivity.
Qed.

Lemma Write_stream_returns (cw : adapter.ConsoleWriter W)
    (ctx : context.Context) (message : string) (st st' : io.WriterState)
    (n : Z) (e : option error) :
  context.recv_ready (context.Done ctx) = false ->
  io.Write (adapter.w cw) (message ++ fmt.newline) st
  = (Returned (n, e), st') ->
  adapter.Write cw ctx message st
  = (Returned
       match e with
       | Some e' => Err (NewInfrastructureError (Error e'))
       | None => Ok UnitValue
       end, st').
Proof.
  intros Hc Hw.
  unfold adapter.Write, defer_recover, adapter.Write_body, fmt.Fprintln, bind.
  rewrite Hc, Hw. destruct e; reflexivity.
Qed.

(** The tap passes a write on and adds it to the record. *)
Lemma Tap_Write (t : W) (p : string) (st : io.WriterState)
    (calls : list string) :
  io.Write (probe.mkTap t) p (st, calls)
  = (fst (io.Write t p st), (snd (io.Write t p st), (calls ++ [p])%list)).
Proof.
  cbn. now destruct (io.Write t p st).
Qed.

End AdapterLemmas.

Section AdapterProperties.
Import domerr model.
Context {W : Type} `{io.Writer W}.

(** C1. When the stream's write panics, or anything else in the body of
    [Write] does, [Write] returns an [Err] of kind [InfrastructureError],
    in the state the panic left; and on no input at all does [Write] end
    in a panic. *)
Theorem Write_converts_panic
    (cw : adapter.ConsoleWriter W) (ctx : context.Context)
    (message : string) (st : io.WriterState) :
  (forall (v : string) (st' : io.WriterState),
      context.recv_ready (context.Done ctx) = false ->
      io.Write (adapter.w cw) (message ++ fmt.newline) st = (Panicked v, st') ->
      exists r, adapter.Write cw ctx message st = (Returned r, st')
                /\ infrastructure_failure r)
  /\ (forall (v : string) (st' : io.WriterState),
        adapter.Write_body cw ctx message st = (Panicked v, st') ->
        exists r, adapter.Write cw ctx message st = (Returned r, st')
                  /\ infrastructure_failure r)
  /\ (forall (v : string) (st' : io.WriterState),
        adapter.Write cw ctx message st <> (Panicked v, st')).
Proof.
  split; [| split].
  - intros v st' Hc Hw.
    rewrite (Write_stream_panics cw ctx message st st' v Hc Hw).
    eexists. split; [reflexivity | split; reflexivity].
  - intros v st' Hb. unfold adapter.Write, defer_recover. rewrite Hb.
    eexists. split; [reflexivity | split; reflexivity].
  - intros v st' Hp.
    destruct (Write_returns cw ctx message st) as (r & st'' & Hr).
    rewrite Hr in Hp. discriminate.
Qed.

(** C7. When the context is already cancelled, [Write] returns an [Err]
    of kind [InfrastructureError] and does not call the stream: the
    stream's state is as before, and a tap in front of the stream has
    recorded nothing new. *)
Theorem Write_cancelled_before_write
    (cw : adapter.ConsoleWriter W) (ctx : context.Context)
    (message : string) (st : io.WriterState) (calls : list string) :
  context.recv_ready (context.Done ctx) = true ->
  exists r,
    infrastructure_failure r
    /\ adapter.Write cw ctx message st = (Returned r, st)
    /\ adapter.Write (tapped cw) ctx message (st, calls)
       = (Returned r, (st, calls)).
Proof.
  intros Hc.
  exists (Err (NewInfrastructureError "context cancelled")).
  split; [split; reflexivity |].
  split.
  - exact (Write_cancelled cw ctx message st Hc).
  - exact (Write_cancelled (tapped cw) ctx message (st, calls) Hc).
Qed.

(** C10. On the successful path (the context is not cancelled and the
    stream's write reports no error) [Write] returns [Ok(Unit)], and what
    has reached the stream is one write of the message followed by one
    newline: a tap in front of the stream has recorded exactly that
    buffer. *)
Theorem Write_emits_message_and_newline
    (cw : adapter.ConsoleWriter W) (ctx : context.Context)
    (message : string) (st st' : io.WriterState) (n : Z)
    (calls : list string) :
  context.recv_ready (context.Done ctx) = false ->
  io.Write (adapter.w cw) (message ++ fmt.newline) st
  = (Returned (n, None), st') ->
  adapter.Write cw ctx message st = (Returned (Ok UnitValue), st')
  /\ adapter.Write (tapped cw) ctx message (st, calls)
     = (Returned (Ok UnitValue),
        (st', (calls ++ [(message ++ fmt.newline)%string])%list)).
Proof.
  intros Hc Hw. split.
  - exact (Write_stream_returns cw ctx message st st' n None Hc Hw).
  - pose proof (Write_stream_returns (tapped cw) ctx message (st, calls)
                  (st', (calls ++ [(message ++ fmt.newline)%string])%list)
                  n None Hc) as Ht.
    apply Ht.
    cbn [tapped adapter.w adapter.NewConsoleWriterWithOutput].
    rewrite Tap_Write, Hw. reflexivity.
Qed.

End AdapterProperties.

(** [Write] over a stream that panics with "boom". *)
Lemma Write_converts_panic_witness :
  context.recv_ready (context.Done context.Background) = false
  /\ io.Write (Writer := probe.Faulty_Writer) (probe.mkFaulty "boom")
       ("Hello, Alice!" ++ fmt.newline) tt
     = (Panicked "boom", tt)
  /\ exists r,
       adapter.Write (H := probe.Faulty_Writer)
         (adapter.NewConsoleWriterWithOutput (probe.mkFaulty "boom"))
         context.Background "Hello, Alice!" tt
       = (Returned r, tt)
       /\ infrastructure_failure r.
Proof.
  split; [reflexivity | split; [reflexivity |]].
  apply (proj1 (Write_converts_panic (H := probe.Faulty_Writer)
                  (adapter.NewConsoleWriterWithOutput (probe.mkFaulty "boom"))
                  context.Background "Hello, Alice!" tt) "boom" tt);
    reflexivity.
Defined.

(** The test [TestConsoleWriter_Write_ContextCancelled], over a buffer. *)
Lemma Write_cancelled_before_write_witness :
  context.recv_ready (context.Done (context.WithCancel true)) = true
  /\ exists r,
       infrastructure_failure r
       /\ adapter.Write (adapter.NewConsoleWriterWithOutput probe.NewBuffer)
            (context.WithCancel true) "Should not write" ""
          = (Returned r, "")
       /\ adapter.Write
            (tapped (adapter.NewConsoleWriterWithOutput probe.NewBuffer))
            (context.WithCancel true) "Should not write" ("", [])
          = (Returned r, ("", [])).
Proof.
  split; [reflexivity |].
  apply (Write_cancelled_before_write (H := probe.Buffer_Writer)
           (adapter.NewConsoleWriterWithOutput probe.NewBuffer)
           (context.WithCancel true) "Should not write" "" []).
  reflexivity.
Defined.

(** The test [TestConsoleWriter_Write_Success]: the buffer holds the message
    and the newline. *)
Lemma Write_emits_message_and_newline_witness :
  context.recv_ready (context.Done context.Background) = false
  /\ io.Write probe.NewBuffer ("Hello, Test!" ++ fmt.newline) ""
     = (Returned (13, None), "Hello, Test!" ++ fmt.newline)
  /\ adapter.Write (adapter.NewConsoleWriterWithOutput probe.NewBuffer)
       context.Background "Hello, Test!" ""
     = (Returned (domerr.Ok model.UnitValue), "Hello, Test!" ++ fmt.newline)
  /\ adapter.Write
       (tapped (adapter.NewConsoleWriterWithOutput probe.NewBuffer))
       context.Background "Hello, Test!" ("", [])
     = (Returned (domerr.Ok model.UnitValue),
        ("Hello, Test!" ++ fmt.newline, ["Hello, Test!" ++ fmt.newline])).
Proof.
  split; [reflexivity | split; [reflexivity |]].
  apply (Write_emits_message_and_newline (H := probe.Buffer_Writer)
           (adapter.NewConsoleWriterWithOutput probe.NewBuffer)
           context.Background "Hello, Test!" "" _ 13 []);
    reflexivity.
Defined.

(** ** Scenarios of the whole stack *)

Section Scenarios.
Import domerr model.

(** Scenario A, end to end: the buffer receives the greeting and a
    newline in one write. *)
Example scenario_A :
  usecase.Execute (greeter probe.NewBuffer) context.Background
    (command.NewGreetCommand "Alice") ("", [])
  = (Returned (Ok UnitValue),
     ("Hello, Alice!" ++ fmt.newline, ["Hello, Alice!" ++ fmt.newline])).
Proof. reflexivity. Qed.

(** Scenario E: with a context cancelled beforehand the write is never
    attempted. *)
Example scenario_E :
  usecase.Execute (greeter probe.NewBuffer) (context.WithCancel true)
    (command.NewGreetCommand "Alice") ("", [])
  = (Returned (Err (NewInfrastructureError "context cancelled")), ("", [])).
Proof. reflexivity. Qed.

(** Scenario F: a stream that panics during the write; the one write was
    attempted, and the panic comes back as a Result. *)
Example scenario_F :
  usecase.Execute (greeter (probe.mkFaulty "boom")) context.Background
    (command.NewGreetCommand "Alice") (tt, [])
  = (Returned (Err (NewInfrastructureError "panic recovered")),
     (tt, ["Hello, Alice!" ++ fmt.newline])).
Proof. reflexivity. Qed.

(** A stream that reports an error: its message becomes the message of
    the [InfrastructureError]. *)
Example scenario_io_error :
  usecase.Execute
    (greeter (probe.mkFailing (errors_New "broken pipe")))
    context.Background (command.NewGreetCommand "Alice") (tt, [])
  = (Returned (Err (NewInfrastructureError "broken pipe")),
     (tt, ["Hello, Alice!" ++ fmt.newline])).
Proof. reflexivity. Qed.

(** A counting function under [Map] and [AndThen]: called once on a
    success, not at all on a failure. *)
Example probe_under_Map :
  Map (Ok 20) (probe.counting (fun x => ret (x * 2))) (tt, 0%nat)
  = (Returned (Ok 40), (tt, 1%nat))
  /\ Map (Err (T := Z) (NewValidationError "invalid"))
       (probe.counting (fun x => ret (x * 2))) (tt, 0%nat)
     = (Returned (Err (NewValidationError "invalid")), (tt, 0%nat))
  /\ Map (Err (T := Z) (NewValidationError "invalid"))
       (fun _ => panic (A := Z) "called") tt
     = (Returned (Err (NewValidationError "invalid")), tt).
Proof. repeat split. Qed.

End Scenarios.


(** ** More on the console adapter *)

Section AdapterCases.
Import domerr model.
Context {W : Type} `{io.Writer W}.

(** The outcome of [Write], by the context and by what the stream does. *)
Lemma Write_cases (cw : adapter.ConsoleWriter W) (ctx : context.Context)
    (message : string) (st : io.WriterState) :
  adapter.Write cw ctx message st
  = if context.recv_ready (context.Done ctx) then
      (Returned (Err (NewInfrastructureError "context cancelled")), st)
    else
      match io.Write (adapter.w cw) (message ++ fmt.newline) st with
      | (Returned (_, None), st') => (Returned (Ok UnitValue), st')
      | (Returned (_, Some e), st') =>
          (Returned (Err (NewInfrastructureError (Error e))), st')
      | (Panicked _, st') =>
          (Returned (Err (NewInfrastructureError "panic recovered")), st')
      end.
Proof.
  destruct (context.recv_ready (context.Done ctx)) eqn:Hc.
  - exact (Write_cancelled cw ctx message st Hc).
  - destruct (io.Write (adapter.w cw) (message ++ fmt.newline) st)
      as [[[n e] | v] st'] eqn:Hw.
    + rewrite (Write_stream_returns cw ctx message st st' n e Hc Hw).
      now destruct e.
    + exact (Write_stream_panics cw ctx message st st' v Hc Hw).
Qed.

End AdapterCases.

Section AdapterPaths.
Import domerr model.
Context {W : Type} `{io.Writer W}.

(** X1. When the stream's write reports an error, [Write] returns an [Err]
    of kind [InfrastructureError] whose message is the error's own text,
    whatever byte count the stream reported with it; the stream was called
    once, with the message and a newline. *)
Theorem Write_reports_io_error
    (cw : adapter.ConsoleWriter W) (ctx : context.Context)
    (message : string) (st st' : io.WriterState) (n : Z) (e : error)
    (calls : list string) :
  context.recv_ready (context.Done ctx) = false ->
  io.Write (adapter.w cw) (message ++ fmt.newline) st
  = (Returned (n, Some e), st') ->
  adapter.Write cw ctx message st
  = (Returned (Err (NewInfrastructureError (Error e))), st')
  /\ adapter.Write (tapped cw) ctx message (st, calls)
     = (Returned (Err (NewInfrastructureError (Error e))),
        (st', (calls ++ [(message ++ fmt.newline)%string])%list)).
Proof.
  intros Hc Hw. split.
  - exact (Write_stream_returns cw ctx message st st' n (Some e) Hc Hw).
  - pose proof (Write_stream_returns (tapped cw) ctx message (st, calls)
                  (st', (calls ++ [(message ++ fmt.newline)%string])%list)
                  n (Some e) Hc) as Ht.
    apply Ht.
    cbn [tapped adapter.w adapter.NewConsoleWriterWithOutput].
    rewrite Tap_Write, Hw. reflexivity.
Qed.

(** X2. Whatever the stream and the context, [Write] returns, and what it
    returns is [Ok(Unit)] or an [Err] built from an
    [InfrastructureError]: never an error of another kind, never a Result
    with both a value and an error set. *)
Theorem Write_result_kinds
    (cw : adapter.ConsoleWriter W) (ctx : context.Context)
    (message : string) (st : io.WriterState) :
  exists (r : Result Unit) (st' : io.WriterState),
    adapter.Write cw ctx message st = (Returned r, st')
    /\ (r = Ok UnitValue
        \/ exists m : string, r = Err (NewInfrastructureError m)).
Proof.
  rewrite Write_cases.
  destruct (context.recv_ready (context.Done ctx)).
  - eexists; eexists; split; [reflexivity | right; eauto].
  - destruct (io.Write (adapter.w cw) (message ++ fmt.newline) st)
      as [[[n [e |]] | v] st'];
      eexists; eexists; (split; [reflexivity |]); eauto.
Qed.

(** X3. One call of [Write] calls the stream at most once: not at all when
    the context is cancelled, and otherwise exactly once, with the message
    and a newline, whether the stream then succeeds, reports an error or
    panics. *)
Theorem Write_calls_stream_at_most_once
    (cw : adapter.ConsoleWriter W) (ctx : context.Context)
    (message : string) (st : io.WriterState) (calls : list string) :
  snd (snd (adapter.Write (tapped cw) ctx message (st, calls)))
  = if context.recv_ready (context.Done ctx) then calls
    else (calls ++ [(message ++ fmt.newline)%string])%list.
Proof.
  rewrite (Write_cases (tapped cw)).
  destruct (context.recv_ready (context.Done ctx)); [reflexivity |].
  cbn [tapped adapter.w adapter.NewConsoleWriterWithOutput].
  rewrite Tap_Write.
  destruct (io.Write (adapter.w cw) (message ++ fmt.newline) st)
    as [[[n [e |]] | v] st']; reflexivity.
Qed.

(** X4. [Write] returns a success only when the message went out: the
    context was not cancelled and the stream's write of the message and a
    newline returned without an error, leaving the state [Write] ends
    in. *)
Theorem Write_Ok_only_after_write
    (cw : adapter.ConsoleWriter W) (ctx : context.Context)
    (message : string) (st st' : io.WriterState) (r : Result Unit) :
  adapter.Write cw ctx message st = (Returned r, st') ->
  IsOk r = true ->
  context.recv_ready (context.Done ctx) = false
  /\ exists n : Z,
       io.Write (adapter.w cw) (message ++ fmt.newline) st
       = (Returned (n, None), st').
Proof.
  rewrite Write_cases.
  destruct (context.recv_ready (context.Done ctx)).
  - intros Hr Hok. inversion Hr; subst. discriminate.
  - destruct (io.Write (adapter.w cw) (message ++ fmt.newline) st)
      as [[[n [e |]] | v] st1];
      intros Hr Hok; inversion Hr; subst; try discriminate.
    split; [reflexivity | now exists n].
Qed.

End AdapterPaths.

(** [Write] over a stream that reports "broken pipe". *)
Lemma Write_reports_io_error_witness :
  adapter.Write (H := probe.Failing_Writer)
    (adapter.NewConsoleWriterWithOutput
       (probe.mkFailing (errors_New "broken pipe")))
    context.Background "Hello, Alice!" tt
  = (Returned (domerr.Err (domerr.NewInfrastructureError "broken pipe")), tt).
Proof.
  apply (Write_reports_io_error (H := probe.Failing_Writer)
           (adapter.NewConsoleWriterWithOutput
              (probe.mkFailing (errors_New "broken pipe")))
           context.Background "Hello, Alice!" tt tt 0
           (errors_New "broken pipe") []);
    reflexivity.
Defined.

(** [Write] over a buffer: the success comes with the line in the buffer. *)
Lemma Write_Ok_only_after_write_witness :
  context.recv_ready (context.Done context.Background) = false
  /\ exists n : Z,
       io.Write probe.NewBuffer ("Hello, Test!" ++ fmt.newline) ""
       = (Returned (n, None), "Hello, Test!" ++ fmt.newline).
Proof.
  apply (Write_Ok_only_after_write (H := probe.Buffer_Writer)
           (adapter.NewConsoleWriterWithOutput probe.NewBuffer)
           context.Background "Hello, Test!" ""
           ("Hello, Test!" ++ fmt.newline) (domerr.Ok model.UnitValue));
    reflexivity.
Defined.

(** ** More on the use case *)

Section UseCasePaths.
Import domerr valueobject model.
Context {W : Type} `{outbound.WriterPort W}.

(** X5. [Execute] does not panic by itself: its calls of [ErrorInfo] and
    [Value] are on the side of [IsError] where they return.  If [Execute]
    ends in a panic, the name was valid and the panic is the writer's, from
    its one call with the greeting, with the state that call left. *)
Theorem Execute_panics_only_in_writer
    (uc : usecase.GreetUseCase W) (ctx : context.Context)
    (cmd : command.GreetCommand) (st st' : outbound.PortState) (v : string) :
  usecase.Execute uc ctx cmd st = (Panicked v, st') ->
  IsOk (CreatePerson (command.Name cmd)) = true
  /\ outbound.Write (usecase.writer uc) ctx
       ("Hello, " ++ command.Name cmd ++ "!") st
     = (Panicked v, st').
Proof.
  intros Hp.
  destruct (IsError (CreatePerson (command.Name cmd))) eqn:He.
  - rewrite (Execute_invalid uc ctx cmd st He) in Hp. discriminate.
  - assert (Hok : IsOk (CreatePerson (command.Name cmd)) = true)
      by (rewrite IsOk_IsError, He; reflexivity).
    split; [exact Hok |].
    now rewrite <- (Execute_valid uc ctx cmd Hok).
Qed.

(** X6. The hand-written railway of [Execute] is the combinator: [Execute]
    is [AndThen] of the Result of [CreatePerson] with the function that
    writes the Person's greeting. *)
Theorem Execute_as_AndThen
    (uc : usecase.GreetUseCase W) (ctx : context.Context)
    (cmd : command.GreetCommand) (st : outbound.PortState) :
  usecase.Execute uc ctx cmd st
  = AndThen (CreatePerson (command.Name cmd))
      (fun person =>
         outbound.Write (usecase.writer uc) ctx (GreetingMessage person))
      st.
Proof.
  unfold usecase.Execute, AndThen, IsError, ErrorInfo, Value.
  destruct (hasError (CreatePerson (command.Name cmd))); reflexivity.
Qed.

End UseCasePaths.

(** [Execute] over a port that panics with "boom". *)
Lemma Execute_panics_only_in_writer_witness :
  domerr.IsOk (valueobject.CreatePerson "Alice") = true
  /\ outbound.Write (probe.mkFaultyPort "boom") context.Background
       "Hello, Alice!" tt
     = (Panicked "boom", tt).
Proof.
  apply (Execute_panics_only_in_writer (H := probe.FaultyPort_WriterPort)
           (usecase.NewGreetUseCase (probe.mkFaultyPort "boom"))
           context.Background (command.NewGreetCommand "Alice") tt tt "boom").
  reflexivity.
Defined.

Section MockWriterPaths.
Import domerr valueobject model.

(** X7. The test guide's [MockWriter] under [Execute], for a valid name:
    with no [Err] set the buffer grows by the greeting, without a newline,
    and the result is [Ok(Unit)]; with [Err] set the buffer is untouched and
    the result is an [InfrastructureError] with the text of [Err].  The
    context plays no part: the mock writes under a cancelled context
    too. *)
Theorem Execute_over_MockWriter
    (e : option error) (ctx : context.Context) (cmd : command.GreetCommand)
    (buffer : string) :
  IsOk (CreatePerson (command.Name cmd)) = true ->
  usecase.Execute (usecase.NewGreetUseCase (probe.mkMockWriter e)) ctx cmd
    buffer
  = match e with
    | None =>
        (Returned (Ok UnitValue),
         buffer ++ "Hello, " ++ command.Name cmd ++ "!")
    | Some e' => (Returned (Err (NewInfrastructureError (Error e'))), buffer)
    end.
Proof.
  intros Hok.
  rewrite (Execute_valid _ ctx cmd Hok).
  destruct e; reflexivity.
Qed.

End MockWriterPaths.

(** The mock under a cancelled context: the greeting is in the buffer. *)
Lemma Execute_over_MockWriter_witness :
  usecase.Execute (usecase.NewGreetUseCase (probe.mkMockWriter None))
    (context.WithCancel true) (command.NewGreetCommand "Bob Smith") "> "
  = (Returned (domerr.Ok model.UnitValue), "> Hello, Bob Smith!").
Proof.
  apply (Execute_over_MockWriter None (context.WithCancel true)
           (command.NewGreetCommand "Bob Smith") "> ").
  reflexivity.
Defined.

(** ** The composition root *)

Lemma string_append_assoc (a b c : string) : (a ++ b) ++ c = a ++ b ++ c.
Proof.
  induction a as [| x a IH]; cbn; [reflexivity | now rewrite IH].
Qed.

Section GreeterLemmas.
Import domerr valueobject model.
Context {W : Type} `{io.Writer W}.

(** [Greeter.Execute], by the name, the context and what the standard
    output does. *)
Lemma Greeter_Execute_cases (Stdout : W) (ctx : context.Context)
    (cmd : command.GreetCommand) (st : io.WriterState) :
  desktop.Execute (desktop.NewGreeter Stdout) ctx cmd st
  = if IsError (CreatePerson (command.Name cmd)) then
      (Returned (Err (err (CreatePerson (command.Name cmd)))), st)
    else if context.recv_ready (context.Done ctx) then
      (Returned (Err (NewInfrastructureError "context cancelled")), st)
    else
      match io.Write Stdout
              ("Hello, " ++ command.Name cmd ++ "!" ++ fmt.newline) st with
      | (Returned (_, None), st') => (Returned (Ok UnitValue), st')
      | (Returned (_, Some e), st') =>
          (Returned (Err (NewInfrastructureError (Error e))), st')
      | (Panicked _, st') =>
          (Returned (Err (NewInfrastructureError "panic recovered")), st')
      end.
Proof.
  unfold desktop.Execute, desktop.NewGreeter.
  cbn [desktop.useCase].
  destruct (IsError (CreatePerson (command.Name cmd))) eqn:He.
  - exact (Execute_invalid (H := adapter.ConsoleWriter_WriterPort)
             _ ctx cmd st He).
  - assert (Hok : IsOk (CreatePerson (command.Name cmd)) = true)
      by (rewrite IsOk_IsError, He; reflexivity).
    rewrite (Execute_valid (H := adapter.ConsoleWriter_WriterPort)
               _ ctx cmd Hok).
    cbn [usecase.writer usecase.NewGreetUseCase outbound.Write
         adapter.ConsoleWriter_WriterPort].
    rewrite Write_cases.
    cbn [adapter.w adapter.NewConsoleWriter].
    replace (("Hello, " ++ command.Name cmd ++ "!") ++ fmt.newline)
      with ("Hello, " ++ command.Name cmd ++ "!" ++ fmt.newline)
      by (now rewrite !string_append_assoc).
    reflexivity.
Qed.

End GreeterLemmas.

Section GreeterProperties.
Import domerr valueobject model.
Context {W : Type} `{io.Writer W}.

(** X8. The contract of [GreetPort] holds of [Greeter.Execute] over any
    standard output: it never panics; it returns the [ValidationError] of
    [CreatePerson], with the output untouched, exactly when the name fails
    validation; and for a valid name it returns [Ok(Unit)] or an
    [InfrastructureError]. *)
Theorem Greeter_Execute_contract (Stdout : W) (ctx : context.Context)
    (cmd : command.GreetCommand) (st : io.WriterState) :
  exists (r : Result Unit) (st' : io.WriterState),
    desktop.Execute (desktop.NewGreeter Stdout) ctx cmd st = (Returned r, st')
    /\ ((IsError (CreatePerson (command.Name cmd)) = true
         /\ r = Err (err (CreatePerson (command.Name cmd)))
         /\ Kind (err r) = ValidationError
         /\ st' = st)
        \/ (IsOk (CreatePerson (command.Name cmd)) = true
            /\ (r = Ok UnitValue
                \/ exists m : string, r = Err (NewInfrastructureError m)))).
Proof.
  rewrite Greeter_Execute_cases.
  destruct (IsError (CreatePerson (command.Name cmd))) eqn:He.
  - eexists; eexists; split; [reflexivity | left].
    repeat split. exact (CreatePerson_failure_kind _ He).
  - assert (Hok : IsOk (CreatePerson (command.Name cmd)) = true)
      by (rewrite IsOk_IsError, He; reflexivity).
    destruct (context.recv_ready (context.Done ctx)).
    + eexists; eexists; split; [reflexivity | right; split; eauto].
    + destruct (io.Write Stdout _ st) as [[[n [e |]] | v] st'];
        eexists; eexists; (split; [reflexivity | right; split; eauto]).
Qed.

(** X9. What the standard output sees of one [Greeter.Execute]: one write
    of "Hello, " + name + "!" and a newline when the name is valid and the
    context is not cancelled, and nothing at all otherwise. *)
Theorem Greeter_Execute_output (Stdout : W) (ctx : context.Context)
    (cmd : command.GreetCommand) (st : io.WriterState)
    (calls : list string) :
  snd (snd (desktop.Execute (desktop.NewGreeter (probe.mkTap Stdout))
              ctx cmd (st, calls)))
  = if IsOk (CreatePerson (command.Name cmd))
       && negb (context.recv_ready (context.Done ctx))
    then (calls
          ++ [("Hello, " ++ command.Name cmd ++ "!" ++ fmt.newline)%string])%list
    else calls.
Proof.
  rewrite (Greeter_Execute_cases (probe.mkTap Stdout)).
  rewrite IsOk_IsError.
  destruct (IsError (CreatePerson (command.Name cmd))); [reflexivity |].
  destruct (context.recv_ready (context.Done ctx)); [reflexivity |].
  rewrite Tap_Write.
  destruct (io.Write Stdout _ st) as [[[n [e |]] | v] st']; reflexivity.
Qed.

End GreeterProperties.

(** ** The two patterns *)

Section PatternProperties.
Import domerr model.
Context {St A B : Type} `{Zero A} `{Zero B}.

(** X10. The panic recovery pattern: [Operation] never ends in a panic; it
    hands on what a returning body returns, state included; it turns a
    panic with the text [v] into an [Err] of kind [InfrastructureError] with
    the message "panic: " + [v], in the state the panic left; and a second
    guard around the first changes nothing. *)
Theorem Operation_guards_boundary (body : Go St (Result A)) (st : St) :
  (forall v st', pattern.Operation body st <> (Panicked v, st'))
  /\ (forall r st',
        body st = (Returned r, st') ->
        pattern.Operation body st = (Returned r, st'))
  /\ (forall v st',
        body st = (Panicked v, st') ->
        pattern.Operation body st
        = (Returned (Err (NewInfrastructureError ("panic: " ++ v))), st'))
  /\ pattern.Operation (pattern.Operation body) st
     = pattern.Operation body st.
Proof.
  unfold pattern.Operation, pattern.Sprintf_panic, defer_recover.
  destruct (body st) as [[r | v] st1]; repeat split; intros;
    try discriminate; congruence.
Qed.

(** X11. The railway pattern stops at the first failure: when the first
    operation returns a failure, the pattern returns an [Err] of the same
    error in the state the first operation left, and the second operation
    is not called (a counting second operation keeps its count). *)
Theorem Railway_first_failure_wins
    (operation1 : Go St (Result A)) (operation2 : A -> Go St (Result B))
    (st st1 : St) (r1 : Result A) (n : nat) :
  operation1 st = (Returned r1, st1) ->
  IsError r1 = true ->
  pattern.Railway operation1 operation2 st = (Returned (Err (err r1)), st1)
  /\ pattern.Railway
       (fun '(s, k) => let '(o, s') := operation1 s in (o, (s', k)))
       (probe.counting operation2) (st, n)
     = (Returned (Err (err r1)), (st1, n)).
Proof.
  intros H1 He. unfold IsError in He.
  unfold pattern.Railway, bind, IsError, ErrorInfo, lift, ret.
  rewrite H1, He. auto.
Qed.

(** X12. The railway pattern is the chain of the combinators: the first
    operation, [AndThen] the second, [Map] to [Unit]; so it panics only
    where an operation does, and an error of either operation comes out
    unchanged. *)
Theorem Railway_as_AndThen_Map
    (operation1 : Go St (Result A)) (operation2 : A -> Go St (Result B))
    (st : St) :
  pattern.Railway operation1 operation2 st
  = (result1 <- operation1;;
     result2 <- AndThen result1 operation2;;
     Map result2 (fun _ => ret UnitValue)) st.
Proof.
  unfold pattern.Railway, bind, AndThen, Map, IsError, ErrorInfo, Value,
    lift, ret, bind.
  destruct (operation1 st) as [[r1 | v1] st1]; [| reflexivity].
  destruct (hasError r1); [reflexivity |].
  destruct (operation2 (value r1) st1) as [[r2 | v2] st2]; [| reflexivity].
  destruct (hasError r2); reflexivity.
Qed.

End PatternProperties.

(** The guard around a body that panics with "nil map". *)
Lemma Operation_guards_boundary_witness :
  pattern.Operation (T := model.Unit) (panic (St := unit) "nil map") tt
  = (Returned (domerr.Err (domerr.NewInfrastructureError "panic: nil map")),
     tt).
Proof.
  apply (proj1 (proj2 (proj2
           (Operation_guards_boundary (A := model.Unit)
              (panic (St := unit) "nil map") tt)))).
  reflexivity.
Defined.

(** The railway over a validation that fails and a write to a buffer: the
    buffer stays empty. *)
Lemma Railway_first_failure_wins_witness :
  pattern.Railway (St := string)
    (ret (valueobject.CreatePerson ""))
    (fun p => _ <- io.Write (Writer := probe.Buffer_Writer) probe.NewBuffer
                     (valueobject.GreetingMessage p);;
              ret (domerr.Ok model.UnitValue))%go
    ""
  = (Returned (domerr.Err empty_name_error), "").
Proof.
  apply (Railway_first_failure_wins (St := string)
           (ret (valueobject.CreatePerson ""))
           (fun p =>
              _ <- io.Write (Writer := probe.Buffer_Writer) probe.NewBuffer
                     (valueobject.GreetingMessage p);;
              ret (domerr.Ok model.UnitValue))%go
           "" "" (valueobject.CreatePerson "") 0%nat);
    reflexivity.
Defined.
